(** * CometCallback: logging Optuna trials to Comet experiments

    A shallow embedding of [optuna_integration/comet.py].  The callback is a
    sequence of conditional calls on the comet_ml client; the embedding keeps
    the client's objects in a store, records every call in the order it is
    issued, and threads that state through the methods of the class. *)

From stdpp Require Import gmap strings list fin_maps pretty.

Open Scope string_scope.
Open Scope list_scope.

(** ** Values of the two collaborators *)

(** [optuna.study.StudyDirection]. *)
Inductive StudyDirection := NOT_SET | MINIMIZE | MAXIMIZE.

#[global] Instance StudyDirection_eq_dec : EqDecision StudyDirection.
Proof. solve_decision. Defined.

(** Address of a comet_ml client object. *)
Abbreviation loc := nat (only parsing).

(** The class whose constructor made a client object. *)
Inductive ExpClass := APIExperiment | Experiment | ExistingExperiment.

#[global] Instance ExpClass_eq_dec : EqDecision ExpClass.
Proof. solve_decision. Defined.

(** A client object: the key of the remote record it is attached to and its
    [ended] flag. *)
Record ExpObj := {
  exp_class : ExpClass;
  exp_key : string;
  exp_ended : bool
}.

(** Keyword arguments of the client constructors: either
    [previous_experiment=key] or [workspace=..., project_name=...]. *)
Inductive CtorArgs :=
| previous_experiment (k : string)
| workspace_project (workspace : string) (project_name : option string).

(** The value of a [log_other] annotation: the callback logs strings and the
    trial number. *)
Inductive Other := OStr (s : string) | OInt (n : Z).

(** [metric_names[i] if i < len(metric_names) else i] is a name or an index. *)
Inductive NameOrIndex := Name (s : string) | Index (i : nat).

(** The f-string [f"{metric_name}"]. *)
Definition format (m : NameOrIndex) : string :=
  match m with
  | Name s => s
  | Index i => pretty i
  end.

(** The exceptions the framework's attribute reads can raise. *)
Inductive Exception := IndexError | RuntimeError.

(** [json.dumps] on a list of integers. *)
Definition json_dumps (l : list Z) : string :=
  "[" +:+ String.concat ", " (pretty <$> l) +:+ "]".

Section Comet.

(** Objective values (Python floats) and parameter mappings ([trial.params])
    are only passed on by the callback, never inspected. *)
Context {float params_t : Type}.

(** The key the service gives to the [n]-th record it creates. *)
Variable fresh_key : nat → string.

(** ** The optimisation framework's objects

    Attributes the callback reads are fields, except [trial.value] and
    [study.direction]: these are properties that optuna computes from
    [values] and [directions] and that can raise; they are the functions
    [value] and [direction] below. *)

Record Trial := {
  number : Z;
  params : params_t;
  values : option (list float);
  experiment : option loc
}.

(** The property [trial.value]: [None] when [values] is [None]; otherwise it
    raises [RuntimeError] when there is more than one value and returns
    [values[0]], which raises [IndexError] on the empty list. *)
Definition value (trial : Trial) : Exception + option float :=
  match values trial with
  | None => inr None
  | Some vals =>
      if bool_decide (1 < length vals) then inl RuntimeError
      else match vals with
           | v :: _ => inr (Some v)
           | [] => inl IndexError
           end
  end.

(** The study's user attributes at the two reserved keys. *)
Record UserAttrs := {
  comet_study_experiment_key : option string;
  trial_experiments : option (gmap Z string)
}.

Record Study := {
  study_name : string;
  directions : list StudyDirection;
  storage_class_name : string;
  best_trials : list Trial;
  user_attrs : UserAttrs
}.

(** The property [study.direction]: it raises [RuntimeError] on a study with
    more than one direction and returns [directions[0]] otherwise. *)
Definition direction (study : Study) : Exception + StudyDirection :=
  if bool_decide (1 < length (directions study)) then inl RuntimeError
  else match directions study with
       | d :: _ => inr d
       | [] => inl IndexError
       end.

(** [study.set_user_attr("comet_study_experiment_key", k)]. *)
Definition set_comet_study_experiment_key (study : Study) (k : string) : Study :=
  {| study_name := study_name study;
     directions := directions study;
     storage_class_name := storage_class_name study;
     best_trials := best_trials study;
     user_attrs :=
       {| comet_study_experiment_key := Some k;
          trial_experiments := trial_experiments (user_attrs study) |} |}.

(** [trial.experiment = e]. *)
Definition set_experiment (trial : Trial) (e : loc) : Trial :=
  {| number := number trial;
     params := params trial;
     values := values trial;
     experiment := Some e |}.

(** ** The comet_ml module *)

(** Calls issued to the client, each on the object it is invoked on. *)
Inductive Call :=
| get_default_workspace
| construct (cls : ExpClass) (args : CtorArgs) (e : loc)
| add_tag (e : loc) (tag : string)
| log_other (e : loc) (k : string) (v : Other)
| log_parameters (e : loc) (p : params_t)
| log_metric (e : loc) (name : string) (v : float)
| log_optimization (e : loc) (optimization_id : string) (metric_name : string)
    (metric_value : option float) (parameters : params_t)
    (objective : StudyDirection)
| end_ (e : loc).

(** State of the comet_ml module in one process: the client objects made so
    far, the module attribute [active_experiment] ([None] when [hasattr] is
    false), the number of remote records created, the calls issued (oldest
    first) and the account's default workspace. *)
Record CometML := {
  objects : list ExpObj;
  active_experiment : option loc;
  records : nat;
  calls : list Call;
  default_workspace : string
}.

(** State passing over the comet_ml module. *)
Definition M (A : Type) : Type := CometML → A * CometML.

#[local] Instance M_ret : MRet M := λ A a w, (a, w).

#[local] Instance M_bind : MBind M :=
  λ A B k m w, let (a, w') := m w in k a w'.

(** [pass]. *)
Definition pass : M unit := mret tt.

(** The state once the calls [cs] have been issued. *)
Definition add_calls (cs : list Call) (w : CometML) : CometML :=
  {| objects := objects w;
     active_experiment := active_experiment w;
     records := records w;
     calls := calls w ++ cs;
     default_workspace := default_workspace w |}.

(** Issue a call that leaves the client objects as they are. *)
Definition call (c : Call) : M unit := λ w, (tt, add_calls [c] w).

(** [comet_ml.api.API().get_default_workspace()]. *)
Definition API_get_default_workspace : M string :=
  λ w, (default_workspace w, add_calls [get_default_workspace] w).

(** [cls(workspace=..., project_name=...)]: the service creates a record, the
    new client object is attached to it and is not ended. *)
Definition new_experiment (cls : ExpClass) (workspace : string)
    (project_name : option string) : M loc :=
  λ w, let e := length (objects w) in
       (e, {| objects := objects w ++
                [{| exp_class := cls;
                    exp_key := fresh_key (records w);
                    exp_ended := false |}];
              active_experiment := active_experiment w;
              records := S (records w);
              calls := calls w ++
                [construct cls (workspace_project workspace project_name) e];
              default_workspace := default_workspace w |}).

(** [cls(previous_experiment=k)]: a new client object attached to the record
    [k]; no record is created. *)
Definition resume_experiment (cls : ExpClass) (k : string) : M loc :=
  λ w, let e := length (objects w) in
       (e, {| objects := objects w ++
                [{| exp_class := cls; exp_key := k; exp_ended := false |}];
              active_experiment := active_experiment w;
              records := records w;
              calls := calls w ++ [construct cls (previous_experiment k) e];
              default_workspace := default_workspace w |}).

(** The key and the [ended] flag of the object at [e]. *)
Definition key_of (w : CometML) (e : loc) : string :=
  default "" (exp_key <$> objects w !! e).

Definition ended_of (w : CometML) (e : loc) : bool :=
  default true (exp_ended <$> objects w !! e).

(** [e.get_key()] and [e.key]. *)
Definition get_key (e : loc) : M string := λ w, (key_of w e, w).

(** [e.ended]. *)
Definition ended (e : loc) : M bool := λ w, (ended_of w e, w).

(** [e.end()]: the object is marked ended. *)
Definition end_experiment (e : loc) : M unit :=
  λ w, (tt, {| objects :=
                 match objects w !! e with
                 | Some o =>
                     <[e := {| exp_class := exp_class o;
                               exp_key := exp_key o;
                               exp_ended := true |}]> (objects w)
                 | None => objects w
                 end;
               active_experiment := active_experiment w;
               records := records w;
               calls := calls w ++ [end_ e];
               default_workspace := default_workspace w |}).

(** [getattr(comet_ml, "active_experiment")] when [hasattr] holds. *)
Definition get_active_experiment : M (option loc) :=
  λ w, (active_experiment w, w).

(** [setattr(comet_ml, "active_experiment", e)]. *)
Definition set_active_experiment (e : loc) : M unit :=
  λ w, (tt, {| objects := objects w;
               active_experiment := Some e;
               records := records w;
               calls := calls w;
               default_workspace := default_workspace w |}).

(** [for i, x in enumerate(l): body i x], counting from [i]. *)
Fixpoint for_enumerate_from {A} (i : nat) (l : list A)
    (body : nat → A → M unit) : M unit :=
  match l with
  | [] => pass
  | x :: l' => body i x;; for_enumerate_from (S i) l' body
  end.

Definition for_enumerate {A} (l : list A) (body : nat → A → M unit) : M unit :=
  for_enumerate_from 0 l body.

(** Python truthiness of [experiment_key]: [None] and the empty string are
    false. *)
Definition truthy (k : option string) : bool :=
  match k with
  | Some s => negb (String.eqb s "")
  | None => false
  end.

(** ** class CometCallback *)

Record CometCallback := {
  _project_name : option string;
  _workspace : string;
  _metric_names : list string;
  study_experiment : loc;
  _trial_experiments : gmap Z string
}.

(** [metric_names[i] if i < len(metric_names) else i]. *)
Definition metric_name_at (metric_names : list string) (i : nat) : NameOrIndex :=
  if decide (i < length metric_names) then Name (metric_names !!! i)
  else Index i.

(** [_init_optuna_study_experiment]; it reads [self._workspace] and
    [self._project_name], and returns the study as [set_user_attr] leaves
    it. *)
Definition _init_optuna_study_experiment (_workspace : string)
    (_project_name : option string) (study : Study) : M (loc * Study) :=
  let experiment_key := comet_study_experiment_key (user_attrs study) in
  if truthy experiment_key then
    study_experiment ← resume_experiment APIExperiment (default "" experiment_key);
    mret (study_experiment, study)
  else
    study_experiment ← new_experiment APIExperiment _workspace _project_name;
    call (add_tag study_experiment "optuna_study");;
    call (log_other study_experiment "optuna_study_name" (OStr (study_name study)));;
    call (log_other study_experiment "optuna_storage" (OStr (storage_class_name study)));;
    k ← get_key study_experiment;
    mret (study_experiment, set_comet_study_experiment_key study k).

(** [__init__]. *)
Definition __init__ (study : Study) (workspace : option string)
    (project_name : option string) (metric_names : option (list string))
    : M (CometCallback * Study) :=
  let metric_names := match metric_names with Some l => l | None => [] end in
  _workspace ← match workspace with
               | Some ws => mret ws
               | None => API_get_default_workspace
               end;
  '(study_experiment, study) ←
    _init_optuna_study_experiment _workspace project_name study;
  for_enumerate (directions study) (λ i direction,
    let direction_str :=
      if decide (direction = MINIMIZE) then "minimize" else "maximize" in
    let metric_name := metric_name_at metric_names i in
    call (log_other study_experiment
            ("direction_of_objective_" +:+ format metric_name)
            (OStr direction_str)));;
  (* [study.user_attrs] hands out a copy of the stored attributes; when the
     key is missing the dictionary is a new one, and line 101 only reads
     [study.user_attrs] again. *)
  let _trial_experiments :=
    match trial_experiments (user_attrs study) with
    | Some d => d
    | None => ∅
    end in
  mret ({| _project_name := project_name;
           _workspace := _workspace;
           _metric_names := metric_names;
           study_experiment := study_experiment;
           _trial_experiments := _trial_experiments |}, study).

(** [self._trial_experiments[n] = k]. *)
Definition set_trial_experiment (self : CometCallback) (n : Z) (k : string)
    : CometCallback :=
  {| _project_name := _project_name self;
     _workspace := _workspace self;
     _metric_names := _metric_names self;
     study_experiment := study_experiment self;
     _trial_experiments := <[n := k]> (_trial_experiments self) |}.

(** Lines 172-184 of [_init_optuna_trial_experiment]: load or make the
    experiment and set the module attribute. *)
Definition load_or_make (self : CometCallback) (study : Study) (trial : Trial)
    (experiment_key : option string) : M (loc * CometCallback) :=
  '(experiment, self) ←
    (if truthy experiment_key then
       experiment ← resume_experiment ExistingExperiment (default "" experiment_key);
       mret (experiment, self)
     else
       experiment ← new_experiment Experiment (_workspace self) (_project_name self);
       call (add_tag experiment "optuna_trial");;
       call (log_other experiment "optuna_study_name" (OStr (study_name study)));;
       k ← get_key experiment;
       mret (experiment, set_trial_experiment self (number trial) k));
  set_active_experiment experiment;;
  mret (experiment, self).

(** [_init_optuna_trial_experiment]. *)
Definition _init_optuna_trial_experiment (self : CometCallback) (study : Study)
    (trial : Trial) : M (loc * CometCallback) :=
  let experiment_key := _trial_experiments self !! number trial in
  active ← get_active_experiment;
  match active with
  | Some a =>
      k ← get_key a;
      if decide (experiment_key = Some k) then mret (a, self)
      else
        is_ended ← ended a;
        (if (is_ended : bool) then pass else end_experiment a);;
        load_or_make self study trial experiment_key
  | None => load_or_make self study trial experiment_key
  end.

(** [trial.values and len(trial.values) > 1]: [None] and the empty list are
    false, and the length is read only of a non-empty list. *)
Definition multi_objective (values : option (list float)) : bool :=
  match values with
  | Some ((_ :: _) as vals) => bool_decide (1 < length vals)
  | _ => false
  end.

(** [__call__].  The callback object is returned as the call leaves it,
    with [inr tt] when the call returns and [inl exc] when [exc] leaves it:
    the keyword arguments of [log_optimization] are evaluated in order, so
    [trial.value] is read before [study.direction], and when one of them
    raises, neither [log_optimization] nor the lines after it are run. *)
Definition __call__ (self : CometCallback) (study : Study) (trial : Trial)
    : M (CometCallback * (Exception + unit)) :=
  '(trial_experiment, self) ← _init_optuna_trial_experiment self study trial;
  call (log_parameters trial_experiment (params trial));;
  call (log_other trial_experiment "trial_number" (OInt (number trial)));;
  call (add_tag trial_experiment ("trial_number_" +:+ pretty (number trial)));;
  logged ← (if multi_objective (values trial) then
              for_enumerate (default [] (values trial)) (λ i val,
                let metric_name := metric_name_at (_metric_names self) i in
                call (log_metric trial_experiment (format metric_name) val));;
              mret (inr tt)
            else
              let metric_name :=
                if decide (0 < length (_metric_names self))
                then _metric_names self !!! 0
                else "objective_value" in
              match value trial with
              | inl exc => mret (inl exc)
              | inr metric_value =>
                  match direction study with
                  | inl exc => mret (inl exc)
                  | inr objective =>
                      call (log_optimization trial_experiment
                              (study_name study) metric_name metric_value
                              (params trial) objective);;
                      mret (inr tt)
                  end
              end);
  match logged : Exception + unit with
  | inl exc => mret (self, inl exc)
  | inr _ =>
      call (log_other (study_experiment self) "best_trials"
              (OStr (json_dumps (number <$> best_trials study))));;
      end_experiment trial_experiment;;
      mret (self, inr tt)
  end.

(** [track_in_comet()(func)]: the wrapper around an objective function.
    [study] is the object [self._study] refers to; the wrapper's result comes
    with the callback object as the resolution leaves it. *)
Definition track_in_comet {R} (self : CometCallback) (study : Study)
    (func : Trial → M R) (trial : Trial) : M (R * CometCallback) :=
  '(experiment, self) ← _init_optuna_trial_experiment self study trial;
  let trial := set_experiment trial experiment in
  r ← func trial;
  mret (r, self).

(** ** Views of the call log *)

Definition is_log_metric (c : Call) : bool :=
  match c with log_metric _ _ _ => true | _ => false end.

Definition is_log_optimization (c : Call) : bool :=
  match c with log_optimization _ _ _ _ _ _ => true | _ => false end.

(** The direction annotations: [log_other] under a key that starts with
    [direction_of_objective_]. *)
Definition is_direction_annotation (c : Call) : bool :=
  match c with
  | log_other _ k _ => String.prefix "direction_of_objective_" k
  | _ => false
  end.


(** An invocation of the callback for [trial] returns: either it logs the
    values as metrics, or its reads of [trial.value] and [study.direction]
    both succeed. *)
Definition reads_succeed (study : Study) (trial : Trial) : bool :=
  multi_objective (values trial) ||
  match value trial, direction study with
  | inr _, inr _ => true
  | _, _ => false
  end.

(** TrialExperiments are the objects made by [Experiment] and
    [ExistingExperiment]. *)
Definition is_trial_experiment (o : ExpObj) : bool :=
  match exp_class o with
  | Experiment | ExistingExperiment => true
  | APIExperiment => false
  end.

(** At most one TrialExperiment is open, and it is the one the module
    attribute [active_experiment] points to. *)
Definition at_most_one_active (w : CometML) : Prop :=
  ∀ l o, objects w !! l = Some o →
         is_trial_experiment o = true → exp_ended o = false →
         active_experiment w = Some l.

End Comet.

(** ** Concrete runs

    Objective values and parameter values are written as their Python
    literals; the service numbers the records it creates. *)

Definition service_key (n : nat) : string := "key" +:+ pretty n.

Abbreviation value_t := string (only parsing).
Abbreviation params_of := (list (string * string)) (only parsing).

(** A process in which comet_ml has not been used yet. *)
Definition fresh_process : @CometML value_t params_of :=
  {| objects := [];
     active_experiment := None;
     records := 0;
     calls := [];
     default_workspace := "team" |}.

Definition trial_0 : @Trial value_t params_of :=
  {| number := 0;
     params := [("lr", "0.01")];
     values := Some ["0.42"];
     experiment := None |}.

Definition trial_1 : @Trial value_t params_of :=
  {| number := 1;
     params := [("lr", "0.1")];
     values := Some ["0.1"; "0.9"];
     experiment := None |}.



(** A study that no callback has been attached to. *)
Definition new_study : @Study value_t params_of :=
  {| study_name := "study";
     directions := [MINIMIZE];
     storage_class_name := "InMemoryStorage";
     best_trials := [trial_0];
     user_attrs :=
       {| comet_study_experiment_key := None; trial_experiments := None |} |}.

(** The same study with the empty string stored under the reserved key. *)
Definition empty_key_study : @Study value_t params_of :=
  {| study_name := "study";
     directions := [MINIMIZE];
     storage_class_name := "InMemoryStorage";
     best_trials := [trial_0];
     user_attrs :=
       {| comet_study_experiment_key := Some "";
          trial_experiments := None |} |}.

(** The same study with a key stored by an earlier callback. *)
Definition keyed_study : @Study value_t params_of :=
  {| study_name := "study";
     directions := [MINIMIZE];
     storage_class_name := "InMemoryStorage";
     best_trials := [trial_0];
     user_attrs :=
       {| comet_study_experiment_key := Some "abc123";
          trial_experiments := None |} |}.


(** The callback and the process after [CometCallback(new_study)]. *)
Definition constructed : CometCallback * Study * CometML :=
  __init__ service_key new_study None (Some "general") None fresh_process.

(** A callback with metric names, in a process whose active experiment is
    the open experiment of trial 0. *)
Definition named_callback : CometCallback :=
  {| _project_name := Some "general";
     _workspace := "team";
     _metric_names := ["loss"; "acc"];
     study_experiment := 0;
     _trial_experiments := {[ 0%Z := "key1" ]} |}.

Definition trial_0_active : @CometML value_t params_of :=
  {| objects :=
       [{| exp_class := APIExperiment; exp_key := "key0"; exp_ended := false |};
        {| exp_class := Experiment; exp_key := "key1"; exp_ended := false |}];
     active_experiment := Some 1;
     records := 2;
     calls := [];
     default_workspace := "team" |}.

(** An objective function as in the class docstring: it logs one annotation
    through [trial.experiment] and returns its value. *)
Definition logging_objective (trial : @Trial value_t params_of)
    : @M value_t params_of string :=
  λ w, ("0.42",
        add_calls [log_other (default 0%nat (experiment trial)) "foo"
                     (OStr "bar")] w).

(** An objective function that logs through [trial.experiment] and then
    ends that experiment itself. *)
Definition ending_objective (trial : @Trial value_t params_of)
    : @M value_t params_of string :=
  λ w, let e := default 0%nat (experiment trial) in
       ("0.42",
        (end_experiment e (add_calls [log_other e "foo" (OStr "bar")] w)).2).

(** ** Properties *)

Section Properties.

Context {float params_t : Type}.
Variable fresh_key : nat → string.

Implicit Types (w : @CometML float params_t) (study : @Study float params_t).
Implicit Types (trial : @Trial float params_t) (self : CometCallback).


Ltac norm_app := repeat (progress (rewrite <- ?app_assoc; simpl)).

Ltac run :=
  unfold mbind, M_bind, mret, M_ret, pass, call, get_key, ended,
    get_active_experiment, set_active_experiment in *.

Lemma add_calls_nil w : add_calls [] w = w.
Proof. destruct w; unfold add_calls; simpl. by rewrite app_nil_r. Qed.

Lemma add_calls_app cs1 cs2 w :
  add_calls cs2 (add_calls cs1 w) = add_calls (cs1 ++ cs2) w.
Proof. unfold add_calls; simpl. by rewrite app_assoc. Qed.

(** A loop whose body issues one call per element issues them in order. *)
Lemma for_enumerate_from_call {A} (f : nat → A → @Call float params_t) (l : list A) i w :
  for_enumerate_from i l (λ j x, call (f j x)) w
  = (tt, add_calls (imap (λ j, f (i + j)) l) w).
Proof.
  revert i w. induction l as [|x l IH]; intros i w; simpl.
  - by rewrite add_calls_nil.
  - run. rewrite IH, add_calls_app. simpl.
    rewrite Nat.add_0_r. do 3 f_equal.
    apply imap_ext. intros j y _. simpl. f_equal. lia.
Qed.

Lemma for_enumerate_call {A} (f : nat → A → @Call float params_t) (l : list A) w :
  for_enumerate l (λ j x, call (f j x)) w = (tt, add_calls (imap f l) w).
Proof. unfold for_enumerate. by rewrite for_enumerate_from_call. Qed.

(** C7: when the active experiment's key is the identifier stored for the
    trial, [_init_optuna_trial_experiment] returns the active experiment and
    changes nothing: the call log, the client objects, the record count, the
    module attribute and the callback's trial-to-key mapping are the ones it
    started from. *)
Theorem active_experiment_reused self study trial a k w :
  active_experiment w = Some a →
  _trial_experiments self !! number trial = Some k →
  key_of w a = k →
  _init_optuna_trial_experiment fresh_key self study trial w = ((a, self), w).
Proof.
  intros Ha Hk Hkey. unfold _init_optuna_trial_experiment. run.
  rewrite Ha, Hk, Hkey. by rewrite decide_True.
Qed.

Lemma truthy_Some k : truthy (Some k) = true ↔ k ≠ "".
Proof.
  simpl. rewrite negb_true_iff. split.
  - intros H ->. by rewrite String.eqb_refl in H.
  - intros H. by apply String.eqb_neq.
Qed.

Lemma key_of_new w o : key_of
  {| objects := objects w ++ [o];
     active_experiment := active_experiment w;
     records := records w;
     calls := calls w;
     default_workspace := default_workspace w |} (length (objects w))
  = exp_key o.
Proof. unfold key_of; simpl. by rewrite list_lookup_middle. Qed.

(** What resolving a study with a stored, non-empty key does. *)
Lemma study_experiment_resume ws pn study k w :
  comet_study_experiment_key (user_attrs study) = Some k → k ≠ "" →
  _init_optuna_study_experiment fresh_key ws pn study w
  = ((length (objects w), study),
     snd (resume_experiment APIExperiment k w)).
Proof.
  intros Hk Hne. unfold _init_optuna_study_experiment. rewrite Hk.
  apply truthy_Some in Hne. rewrite Hne. by run.
Qed.

Lemma study_experiment_resume_facts ws pn study k w :
  comet_study_experiment_key (user_attrs study) = Some k → k ≠ "" →
  let r := _init_optuna_study_experiment fresh_key ws pn study w in
  r.1.2 = study ∧
  records r.2 = records w ∧
  calls r.2 = calls w ++ [construct APIExperiment (previous_experiment k) r.1.1] ∧
  key_of r.2 r.1.1 = k.
Proof.
  intros Hk Hne. simpl.
  rewrite (study_experiment_resume _ _ _ k) by done. simpl.
  repeat split. apply (key_of_new w).
Qed.

(** What resolving a study without a usable key does. *)
Lemma study_experiment_create ws pn study w :
  truthy (comet_study_experiment_key (user_attrs study)) = false →
  let e := length (objects w) in
  let k := fresh_key (records w) in
  _init_optuna_study_experiment fresh_key ws pn study w
  = ((e, set_comet_study_experiment_key study k),
     add_calls [add_tag e "optuna_study";
                log_other e "optuna_study_name" (OStr (study_name study));
                log_other e "optuna_storage" (OStr (storage_class_name study))]
       (snd (new_experiment fresh_key APIExperiment ws pn w))).
Proof.
  intros Ht. unfold _init_optuna_study_experiment. rewrite Ht. run. simpl.
  rewrite !add_calls_app. simpl. do 3 f_equal.
  unfold key_of, add_calls; simpl. by rewrite list_lookup_middle.
Qed.

(** C1 (amended): when the study's user attributes hold a non-empty value
    under [comet_study_experiment_key], resolving the StudyExperiment issues
    one call, the resumption by that key; it creates no record, adds no tag,
    logs no annotation and leaves the study's user attributes as they are.
    When the service hands out non-empty keys, a resolution creates at most
    one record and leaves a non-empty key in the study, so that every later
    resolution of that study resumes the same record and creates none. *)
Theorem study_experiment_resolved_once ws pn study w :
  let r := _init_optuna_study_experiment fresh_key ws pn study w in
  (∀ k, comet_study_experiment_key (user_attrs study) = Some k → k ≠ "" →
     r.1.2 = study ∧
     records r.2 = records w ∧
     calls r.2 = calls w ++ [construct APIExperiment (previous_experiment k) r.1.1] ∧
     key_of r.2 r.1.1 = k) ∧
  ((∀ n, fresh_key n ≠ "") →
     (records r.2 ≤ S (records w))%nat ∧
     ∃ k, k ≠ "" ∧
       comet_study_experiment_key (user_attrs r.1.2) = Some k ∧
       key_of r.2 r.1.1 = k ∧
       ∀ ws' pn' w',
         let r' := _init_optuna_study_experiment fresh_key ws' pn' r.1.2 w' in
         r'.1.2 = r.1.2 ∧
         records r'.2 = records w' ∧
         calls r'.2 = calls w' ++ [construct APIExperiment (previous_experiment k) r'.1.1] ∧
         key_of r'.2 r'.1.1 = k).
Proof.
  intros r. split.
  { intros k Hk Hne. exact (study_experiment_resume_facts ws pn study k w Hk Hne). }
  intros Hfresh.
  destruct (truthy (comet_study_experiment_key (user_attrs study))) eqn:Ht.
  - destruct (comet_study_experiment_key (user_attrs study)) as [k|] eqn:Hk;
      [|done].
    apply truthy_Some in Ht.
    destruct (study_experiment_resume_facts ws pn study k w Hk Ht)
      as (Hs & Hr & _ & Hkey).
    fold r in Hs, Hr, Hkey. split; [lia|]. exists k. rewrite Hs.
    split; [done|]. split; [done|]. split; [done|].
    intros ws' pn' w'.
    exact (study_experiment_resume_facts ws' pn' study k w' Hk Ht).
  - subst r. rewrite (study_experiment_create ws pn study w Ht). simpl.
    split; [lia|]. exists (fresh_key (records w)).
    split; [apply Hfresh|]. split; [done|]. split.
    { unfold key_of; simpl. by rewrite list_lookup_middle. }
    intros ws' pn' w'.
    by apply study_experiment_resume_facts.
Qed.

(** *** Trial-experiment resolution *)

(** Loading or making the experiment allocates one open TrialExperiment,
    points the module attribute to it, and issues the constructor call first;
    the calls that follow are the tag and the study-name annotation of a new
    record. *)
Lemma load_or_make_facts self study trial ek w :
  let r := load_or_make fresh_key self study trial ek w in
  let e := length (objects w) in
  r.1.1 = e ∧
  active_experiment r.2 = Some e ∧
  (∃ o, objects r.2 = objects w ++ [o] ∧
        is_trial_experiment o = true ∧ exp_ended o = false) ∧
  (∃ cls args rest,
      calls r.2 = calls w ++ construct cls args e :: rest ∧
      List.filter is_log_metric rest = [] ∧
      List.filter is_log_optimization rest = []).
Proof.
  unfold load_or_make. destruct (truthy ek); run; simpl.
  - repeat split; eauto. by eexists ExistingExperiment, _, [].
  - repeat split; eauto.
    eexists Experiment, _, _. rewrite <- !app_assoc. simpl. eauto.
Qed.

(** The three ways through [_init_optuna_trial_experiment]. *)
Lemma init_trial_cases self study trial w :
  let ek := _trial_experiments self !! number trial in
  let r := _init_optuna_trial_experiment fresh_key self study trial w in
  (∃ a, active_experiment w = Some a ∧ ek = Some (key_of w a) ∧
        r = ((a, self), w)) ∨
  (∃ a, active_experiment w = Some a ∧ ek ≠ Some (key_of w a) ∧
        ended_of w a = false ∧
        r = load_or_make fresh_key self study trial ek (end_experiment a w).2) ∨
  ((active_experiment w = None ∨
    ∃ a, active_experiment w = Some a ∧ ek ≠ Some (key_of w a) ∧
         ended_of w a = true) ∧
   r = load_or_make fresh_key self study trial ek w).
Proof.
  unfold _init_optuna_trial_experiment. run.
  destruct (active_experiment w) as [a|] eqn:Ha; [|by right; right; eauto].
  case_decide as Hk.
  - left. eauto.
  - destruct (ended_of w a) eqn:He.
    + right; right. split; [|done]. right. eauto.
    + right; left. exists a. repeat split; done.
Qed.

Lemma end_experiment_lookup a w l o :
  objects (end_experiment a w).2 !! l = Some o →
  ∃ o', objects w !! l = Some o' ∧ exp_class o = exp_class o' ∧
        exp_key o = exp_key o' ∧
        (exp_ended o = false → l ≠ a ∧ exp_ended o' = false).
Proof.
  unfold end_experiment; simpl.
  destruct (objects w !! a) as [oa|] eqn:Ha.
  - destruct (decide (l = a)) as [->|Hne].
    + rewrite list_lookup_insert_eq by (by eapply lookup_lt_Some).
      intros [= <-]. exists oa. by repeat split.
    + rewrite list_lookup_insert_ne by done.
      intros Hl. exists o. repeat split; try done.
  - intros Hl. exists o. repeat split; try done. congruence.
Qed.

(** The calls of a resolution extend the log, with no metric and no
    optimisation result among them, and it keeps [study_experiment] and
    [_metric_names]. *)
Lemma init_trial_calls self study trial w :
  let r := _init_optuna_trial_experiment fresh_key self study trial w in
  (∃ pre, calls r.2 = calls w ++ pre ∧
          List.filter is_log_metric pre = [] ∧
          List.filter is_log_optimization pre = []) ∧
  study_experiment r.1.2 = study_experiment self ∧
  _metric_names r.1.2 = _metric_names self.
Proof.
  unfold _init_optuna_trial_experiment, load_or_make. run.
  destruct (active_experiment w) as [a|]; [case_decide|].
  - split; [|done]. exists []. by rewrite app_nil_r.
  - destruct (ended_of w a), (truthy _); simpl;
      (split; [|done]); eexists; rewrite <- ?app_assoc; split; try done; done.
  - destruct (truthy _); simpl;
      (split; [|done]); eexists; rewrite <- ?app_assoc; split; try done; done.
Qed.

(** C3: [_init_optuna_trial_experiment] leaves the module attribute pointing
    to the experiment it returns; it keeps the invariant that every open
    TrialExperiment is the one the attribute points to; and when the active
    experiment has another key than the one stored for the trial and is not
    ended, the first call issued is its [end], the next one constructs the
    returned experiment, after which the former is ended and the latter is
    open. *)
Theorem one_active_trial_experiment self study trial w :
  let r := _init_optuna_trial_experiment fresh_key self study trial w in
  active_experiment r.2 = Some r.1.1 ∧
  (at_most_one_active w → at_most_one_active r.2) ∧
  (∀ a, active_experiment w = Some a →
        _trial_experiments self !! number trial ≠ Some (key_of w a) →
        ended_of w a = false →
        r.1.1 ≠ a ∧ ended_of r.2 a = true ∧ ended_of r.2 r.1.1 = false ∧
        ∃ cls args rest,
          calls r.2 = calls w ++ end_ a :: construct cls args r.1.1 :: rest).
Proof.
  intros r. subst r.
  set (ek := _trial_experiments self !! number trial).
  destruct (init_trial_cases self study trial w)
    as [(a & Ha & Hk & ->) | [(a & Ha & Hk & He & ->) | (Hc & ->)]];
    fold ek in Hk || fold ek in Hc; fold ek.
  - split; [done|]. split; [done|]. intros a' Ha' Hk'. simpl in *. congruence.
  - set (w1 := (end_experiment a w).2).
    destruct (load_or_make_facts self study trial ek w1)
      as (He1 & Hact & (o & Ho & Ht & Hopen) & Hcalls).
    assert (Hlen : length (objects w1) = length (objects w)).
    { unfold w1, end_experiment; simpl. destruct (objects w !! a); [|done].
      by rewrite length_insert. }
    assert (Halt : (a < length (objects w))%nat).
    { unfold ended_of in He. destruct (objects w !! a) eqn:E; [|done].
      by eapply lookup_lt_Some. }
    split; [by rewrite Hact, He1|]. split.
    + intros Hinv l o' Hl Hto Hopo. rewrite Hact. rewrite Ho in Hl. f_equal.
      destruct (decide (l < length (objects w1))%nat) as [Hlt|Hge].
      * rewrite lookup_app_l in Hl by done.
        apply end_experiment_lookup in Hl as (o'' & Hl & Hc & _ & Hop).
        destruct (Hop Hopo) as [Hne Hop'].
        assert (Ht'' : is_trial_experiment o'' = true)
          by (unfold is_trial_experiment in *; by rewrite <- Hc).
        specialize (Hinv l o'' Hl Ht'' Hop'). congruence.
      * apply lookup_lt_Some in Hl. rewrite length_app in Hl. cbn [length] in Hl. lia.
    + intros a' Ha' _ _. assert (a' = a) as -> by congruence.
      rewrite He1, Hlen. split; [lia|]. split; [|split].
      * unfold ended_of. rewrite Ho, lookup_app_l by lia.
        unfold w1, end_experiment; simpl. unfold ended_of in He.
        destruct (objects w !! a) eqn:E; [|done].
        by rewrite list_lookup_insert_eq.
      * unfold ended_of. rewrite Ho, <- Hlen, list_lookup_middle by done.
        simpl. by rewrite Hopen.
      * destruct Hcalls as (cls & args & rest & Hcalls & _).
        exists cls, args, rest. rewrite Hcalls, Hlen. simpl.
        by rewrite <- app_assoc.
  - destruct (load_or_make_facts self study trial ek w)
      as (He1 & Hact & (o & Ho & Ht & Hopen) & Hcalls).
    split; [by rewrite Hact, He1|]. split.
    + intros Hinv l o' Hl Hto Hopo. rewrite Hact. rewrite Ho in Hl. f_equal.
      destruct (decide (l < length (objects w))%nat) as [Hlt|Hge].
      * rewrite lookup_app_l in Hl by done.
        specialize (Hinv l o' Hl Hto Hopo).
        destruct Hc as [Hn | (a & Ha & _ & He)]; [congruence|].
        assert (a = l) by congruence. subst a.
        unfold ended_of in He. rewrite Hl in He. simpl in He. congruence.
      * apply lookup_lt_Some in Hl. rewrite length_app in Hl. cbn [length] in Hl. lia.
    + intros a Ha Hk He. destruct Hc as [Hn | (a' & Ha' & _ & He')]; congruence.
Qed.

(** *** The per-trial callback *)

(** What an invocation does after the resolution: the three bookkeeping
    calls, then either the objective values, the [best_trials] annotation
    and the [end], or nothing more when a read raises. *)
Lemma call_unfold self study trial w :
  let r0 := _init_optuna_trial_experiment fresh_key self study trial w in
  let te := r0.1.1 in
  let names := _metric_names r0.1.2 in
  let bookkeeping :=
    [log_parameters te (params trial);
     log_other te "trial_number" (OInt (number trial));
     add_tag te ("trial_number_" +:+ pretty (number trial))] in
  let returned objective_calls :=
    ((r0.1.2, inr tt : Exception + unit),
     (end_experiment te
        (add_calls
           (bookkeeping ++ objective_calls ++
            [log_other (study_experiment r0.1.2) "best_trials"
               (OStr (json_dumps (number <$> best_trials study)))])
           r0.2)).2) in
  let raised exc :=
    ((r0.1.2, inl exc : Exception + unit), add_calls bookkeeping r0.2) in
  __call__ fresh_key self study trial w
  = if multi_objective (values trial) then
      returned
        (imap (λ i val, log_metric te (format (metric_name_at names i)) val)
           (default [] (values trial)))
    else
      match value trial with
      | inl exc => raised exc
      | inr metric_value =>
          match direction study with
          | inl exc => raised exc
          | inr objective =>
              returned
                [log_optimization te (study_name study)
                   (if decide (0 < length names)%nat then names !!! 0%nat
                    else "objective_value")
                   metric_value (params trial) objective]
          end
      end.
Proof.
  unfold __call__, mbind, M_bind, mret, M_ret.
  destruct (_init_optuna_trial_experiment fresh_key self study trial w)
    as [[te self'] w1]. simpl.
  destruct (multi_objective (values trial)).
  - rewrite for_enumerate_call.
    unfold call, end_experiment, add_calls; simpl. by norm_app.
  - destruct (value trial) as [exc|mv]; [|destruct (direction study) as [exc|d]].
    + unfold call, add_calls; simpl. by norm_app.
    + unfold call, add_calls; simpl. by norm_app.
    + unfold call, end_experiment, add_calls; simpl. by norm_app.
Qed.

Lemma first_metric_name (names : list string) :
  (if decide (0 < length names)%nat then names !!! 0%nat else "objective_value")
  = match names with m :: _ => m | [] => "objective_value" end.
Proof. by destruct names. Qed.

Lemma format_metric_name_at (names : list string) i :
  format (metric_name_at names i)
  = match names !! i with Some n => n | None => pretty i end.
Proof.
  unfold metric_name_at. case_decide as Hi.
  - destruct (lookup_lt_is_Some_2 names i Hi) as [n Hn].
    rewrite Hn. simpl. by apply list_lookup_total_correct.
  - rewrite lookup_ge_None_2 by lia. done.
Qed.

Lemma filter_imap_all {A} (p : @Call float params_t → bool) (f : nat → A → Call) (l : list A) :
  (∀ i x, p (f i x) = true) → List.filter p (imap f l) = imap f l.
Proof.
  revert f. induction l as [|x l IH]; intros f Hp; simpl; [done|].
  rewrite Hp. f_equal. apply IH. intros i y. apply Hp.
Qed.

Lemma filter_imap_none {A} (p : @Call float params_t → bool) (f : nat → A → Call) (l : list A) :
  (∀ i x, p (f i x) = false) → List.filter p (imap f l) = [].
Proof.
  revert f. induction l as [|x l IH]; intros f Hp; simpl; [done|].
  rewrite Hp. apply IH. intros i y. apply Hp.
Qed.

(** The single-objective branch: no metric is logged; when both reads
    succeed one optimisation result is logged and the call returns; when one
    raises, the exception leaves the call and no result is logged. *)
Lemma call_single_branch self study trial w :
  multi_objective (values trial) = false →
  let r := __call__ fresh_key self study trial w in
  let te := (_init_optuna_trial_experiment fresh_key self study trial w).1.1 in
  ∃ new, calls r.2 = calls w ++ new ∧
    List.filter is_log_metric new = [] ∧
    (∀ mv d, value trial = inr mv → direction study = inr d →
       r.1.2 = inr tt ∧
       List.filter is_log_optimization new =
         [log_optimization te (study_name study)
            match _metric_names self with
            | m :: _ => m
            | [] => "objective_value"
            end
            mv (params trial) d]) ∧
    (∀ exc,
       value trial = inl exc ∨
       (∃ mv, value trial = inr mv) ∧ direction study = inl exc →
       r.1.2 = inl exc ∧ List.filter is_log_optimization new = []).
Proof.
  intros Hm. simpl. rewrite call_unfold. rewrite Hm.
  destruct (init_trial_calls self study trial w)
    as ((pre & Hpre & Hnm & Hno) & _ & Hnames).
  rewrite Hnames, first_metric_name.
  destruct (value trial) as [exc|mv]; [|destruct (direction study) as [exc|d]];
    simpl; rewrite Hpre; eexists; rewrite <- ?app_assoc;
    (split; [done|]); rewrite !List.filter_app, Hnm, Hno; simpl;
    (split; [done|]); split.
  - intros mv d [=].
  - intros exc' [[= ->] | [[mv [=]] _]]. done.
  - intros mv' d' _ [=].
  - intros exc' [[=] | [_ [= ->]]]. done.
  - intros mv' d' [= ->] [= ->]. done.
  - intros exc' [[=] | [_ [=]]].
Qed.

(** C5: for a trial with exactly one objective value [v], [trial.value] is
    [v] and the callback issues no [log_metric] call; when the study has a
    single direction, so that [study.direction] is read, it issues one
    [log_optimization] call, on the trial's experiment, with the study's name
    as [optimization_id], the first configured metric name (or
    [objective_value] when none is configured), [v], [trial.params] and that
    direction, and returns; when reading [study.direction] raises, the
    exception leaves the callback and no result is logged. *)
Theorem single_objective_logged self study trial v w :
  values trial = Some [v] →
  let r := __call__ fresh_key self study trial w in
  let te := (_init_optuna_trial_experiment fresh_key self study trial w).1.1 in
  value trial = inr (Some v) ∧
  ∃ new, calls r.2 = calls w ++ new ∧
    List.filter is_log_metric new = [] ∧
    (∀ d, direction study = inr d →
       r.1.2 = inr tt ∧
       List.filter is_log_optimization new =
         [log_optimization te (study_name study)
            match _metric_names self with
            | m :: _ => m
            | [] => "objective_value"
            end
            (Some v) (params trial) d]) ∧
    (∀ exc, direction study = inl exc →
       r.1.2 = inl exc ∧ List.filter is_log_optimization new = []).
Proof.
  intros Hv.
  assert (Hval : value trial = inr (Some v)) by (unfold value; by rewrite Hv).
  assert (Hm : multi_objective (values trial) = false)
    by (unfold multi_objective; by rewrite Hv).
  split; [done|].
  destruct (call_single_branch self study trial w Hm)
    as (new & Hcalls & Hnm & Hok & Hexc).
  exists new. split; [done|]. split; [done|]. split.
  - intros d Hd. by apply Hok.
  - intros exc Hd. apply Hexc. right. eauto.
Qed.


(** C6: for a trial with more than one objective value the callback issues
    one [log_metric] call per value, in order, on the trial's experiment, the
    [i]-th named by the [i]-th configured metric name when there is one and
    by the index [i] otherwise; it issues no [log_optimization] call. *)
Theorem multi_objective_logged self study trial vals w :
  values trial = Some vals → (1 < length vals)%nat →
  let r := __call__ fresh_key self study trial w in
  let te := (_init_optuna_trial_experiment fresh_key self study trial w).1.1 in
  ∃ new, calls r.2 = calls w ++ new ∧
    List.filter is_log_metric new =
      imap (λ i val,
              log_metric te
                match _metric_names self !! i with
                | Some n => n
                | None => pretty i
                end val) vals ∧
    List.filter is_log_optimization new = [].
Proof.
  intros Hv Hlen. simpl. rewrite call_unfold.
  assert (Hm : multi_objective (values trial) = true).
  { unfold multi_objective. rewrite Hv. destruct vals; simpl in *; [lia|].
    by apply bool_decide_eq_true_2. }
  rewrite Hm, Hv.
  destruct (init_trial_calls self study trial w)
    as ((pre & Hpre & Hnm & Hno) & _ & Hnames).
  rewrite Hnames. simpl. rewrite Hpre.
  eexists. rewrite <- !app_assoc. split; [done|].
  rewrite !List.filter_app, Hnm, Hno. simpl. rewrite !List.filter_app.
  rewrite filter_imap_all, filter_imap_none by done. simpl.
  rewrite !app_nil_r. split; [|done].
  apply imap_ext. intros i x _. simpl. by rewrite format_metric_name_at.
Qed.






(** C9: the wrapper made by [track_in_comet] resolves the trial's
    experiment, hands [func] the trial with that experiment as its
    [experiment] attribute and its other attributes unchanged, in the state
    the resolution leaves, and returns [func]'s result and final state. *)
Theorem wrapper_delegates {R} self study (func : Trial → M R) trial w :
  let r0 := _init_optuna_trial_experiment fresh_key self study trial w in
  let trial' := set_experiment trial r0.1.1 in
  let r := track_in_comet fresh_key self study func trial w in
  experiment trial' = Some r0.1.1 ∧
  number trial' = number trial ∧ params trial' = params trial ∧
  values trial' = values trial ∧ value trial' = value trial ∧
  r.1.1 = (func trial' r0.2).1 ∧
  r.2 = (func trial' r0.2).2 ∧
  r.1.2 = r0.1.2.
Proof.
  simpl. unfold track_in_comet. run.
  destruct (_init_optuna_trial_experiment fresh_key self study trial w)
    as [[e self'] w1]. simpl.
  by destruct (func (set_experiment trial e) w1).
Qed.

(** *** Construction *)

Lemma study_experiment_calls ws pn study w :
  let r := _init_optuna_study_experiment fresh_key ws pn study w in
  directions r.1.2 = directions study ∧
  ∃ pre, calls r.2 = calls w ++ pre ∧
         List.filter is_direction_annotation pre = [].
Proof.
  unfold _init_optuna_study_experiment. run.
  destruct (truthy _); simpl; (split; [done|]); eexists;
    rewrite <- ?app_assoc; split; try done; done.
Qed.

Lemma prefix_app (s t : string) : String.prefix s (s +:+ t) = true.
Proof.
  induction s as [|a s IH]; simpl.
  - by destruct t.
  - by destruct (Ascii.ascii_dec a a).
Qed.

Lemma direction_str_cases (d : StudyDirection) :
  let v := if decide (d = MINIMIZE) then "minimize" else "maximize" in
  (d = MINIMIZE → v = "minimize") ∧ (d = MAXIMIZE → v = "maximize") ∧
  (v = "minimize" ∨ v = "maximize").
Proof. destruct d; simpl; repeat split; try done; auto. Qed.

(** C4: construction logs one direction annotation per objective on the
    StudyExperiment, in the order of [study.directions]: the [i]-th has the
    value [minimize] or [maximize] of the [i]-th direction and the key
    [direction_of_objective_] followed by the [i]-th configured metric name
    when there is one, and by the index [i] otherwise. *)
Theorem direction_annotations_logged study workspace project_name
    metric_names w :
  let names := default [] metric_names in
  let r := __init__ fresh_key study workspace project_name metric_names w in
  let se := study_experiment r.1.1 in
  ∃ new, calls r.2 = calls w ++ new ∧
    let logged := List.filter is_direction_annotation new in
    length logged = length (directions study) ∧
    ∀ i d, directions study !! i = Some d →
      ∃ v, logged !! i =
             Some (log_other se
                     ("direction_of_objective_" +:+
                        match names !! i with
                        | Some n => n
                        | None => pretty i
                        end) (OStr v)) ∧
           (d = MINIMIZE → v = "minimize") ∧
           (d = MAXIMIZE → v = "maximize") ∧
           (v = "minimize" ∨ v = "maximize").
Proof.
  simpl. unfold __init__, mbind, M_bind, mret, M_ret.
  set (names := match metric_names with Some l => l | None => [] end).
  assert (Hnames : default [] metric_names = names) by by destruct metric_names.
  rewrite Hnames.
  set (m0 := match workspace with
             | Some ws => _
             | None => API_get_default_workspace
             end).
  assert (Hw0 : ∃ pre0, calls (m0 w).2 = calls w ++ pre0 ∧
                        List.filter is_direction_annotation pre0 = []).
  { unfold m0. destruct workspace; simpl.
    - exists []. by rewrite app_nil_r.
    - by exists [get_default_workspace]. }
  destruct (m0 w) as [ws w0]. simpl in Hw0.
  destruct Hw0 as (pre0 & Hpre0 & Hf0).
  destruct (study_experiment_calls ws project_name study w0)
    as (Hdirs & pre1 & Hpre1 & Hf1).
  destruct (_init_optuna_study_experiment fresh_key ws project_name study w0)
    as [[se study'] w1]. simpl in Hdirs, Hpre1.
  rewrite for_enumerate_call. simpl.
  eexists (pre0 ++ pre1 ++ _). split.
  { rewrite Hpre1, Hpre0. by rewrite <- !app_assoc. }
  rewrite !List.filter_app, Hf0, Hf1. simpl.
  rewrite filter_imap_all by (intros; apply prefix_app). rewrite Hdirs.
  split; [by rewrite length_imap|].
  intros i d Hd. eexists. rewrite list_lookup_imap, Hd. simpl.
  rewrite format_metric_name_at. split; [done|].
  apply direction_str_cases.
Qed.

(** *** Further properties of the trial-experiment resolution *)

Lemma load_or_make_resume self study trial k w :
  k ≠ "" →
  load_or_make fresh_key self study trial (Some k) w
  = ((length (objects w), self),
     {| objects := objects w ++
          [{| exp_class := ExistingExperiment; exp_key := k;
              exp_ended := false |}];
        active_experiment := Some (length (objects w));
        records := records w;
        calls := calls w ++
          [construct ExistingExperiment (previous_experiment k)
             (length (objects w))];
        default_workspace := default_workspace w |}).
Proof.
  intros Hk. unfold load_or_make.
  rewrite (proj2 (truthy_Some k) Hk). by run.
Qed.

Lemma load_or_make_create self study trial ek w :
  truthy ek = false →
  let e := length (objects w) in
  load_or_make fresh_key self study trial ek w
  = ((e, set_trial_experiment self (number trial) (fresh_key (records w))),
     {| objects := objects w ++
          [{| exp_class := Experiment; exp_key := fresh_key (records w);
              exp_ended := false |}];
        active_experiment := Some e;
        records := S (records w);
        calls := calls w ++
          [construct Experiment
             (workspace_project (_workspace self) (_project_name self)) e;
           add_tag e "optuna_trial";
           log_other e "optuna_study_name" (OStr (study_name study))];
        default_workspace := default_workspace w |}).
Proof.
  intros Ht. unfold load_or_make. rewrite Ht. run. simpl.
  unfold key_of, add_calls; simpl. rewrite list_lookup_middle by done. simpl.
  by norm_app.
Qed.

Lemma end_experiment_facts a w :
  let w1 := (end_experiment a w).2 in
  length (objects w1) = length (objects w) ∧
  records w1 = records w ∧
  calls w1 = calls w ++ [end_ a] ∧
  active_experiment w1 = active_experiment w.
Proof.
  unfold end_experiment; simpl. destruct (objects w !! a); [|done].
  by rewrite length_insert.
Qed.

(** Ending an experiment changes no key. *)
Lemma end_experiment_key e a w :
  key_of (end_experiment e w).2 a = key_of w a.
Proof.
  unfold key_of, end_experiment; simpl.
  destruct (objects w !! e) as [o|] eqn:He; [|done].
  destruct (decide (a = e)) as [->|Hne].
  - rewrite list_lookup_insert_eq by (by eapply lookup_lt_Some).
    by rewrite He.
  - by rewrite list_lookup_insert_ne.
Qed.

(** An early return: the stored key is the active experiment's. *)
Lemma init_trial_early self study trial a w :
  active_experiment w = Some a →
  _trial_experiments self !! number trial = Some (key_of w a) →
  _init_optuna_trial_experiment fresh_key self study trial w = ((a, self), w).
Proof.
  intros Ha Hk. unfold _init_optuna_trial_experiment. run.
  rewrite Ha, Hk. by rewrite decide_True.
Qed.

(** After a resolution the module attribute points to the returned
    experiment, whose key is the one the mapping holds for the trial. *)
Lemma init_trial_key self study trial w :
  let r := _init_optuna_trial_experiment fresh_key self study trial w in
  active_experiment r.2 = Some r.1.1 ∧
  _trial_experiments r.1.2 !! number trial = Some (key_of r.2 r.1.1).
Proof.
  assert (Hlm : ∀ w0,
    let r := load_or_make fresh_key self study trial
               (_trial_experiments self !! number trial) w0 in
    active_experiment r.2 = Some r.1.1 ∧
    _trial_experiments r.1.2 !! number trial = Some (key_of r.2 r.1.1)).
  { intros w0.
    destruct (truthy (_trial_experiments self !! number trial)) eqn:Ht.
    - destruct (_trial_experiments self !! number trial) as [k|] eqn:Hk;
        [|done].
      apply truthy_Some in Ht. simpl.
      rewrite (load_or_make_resume _ _ _ k) by done. simpl.
      split; [done|]. unfold key_of; simpl.
      by rewrite Hk, list_lookup_middle.
    - simpl. rewrite load_or_make_create by done. simpl.
      split; [done|]. unfold key_of; simpl.
      by rewrite lookup_insert_eq, list_lookup_middle. }
  destruct (init_trial_cases self study trial w)
    as [(a & Ha & Hk & ->) | [(a & Ha & Hk & He & ->) | (Hc & ->)]].
  - done.
  - apply Hlm.
  - apply Hlm.
Qed.

(** X6: when no identifier is stored for the trial, the resolution ends the
    active experiment if there is an open one, then makes an [Experiment] in
    the callback's workspace and project, tags it [optuna_trial], annotates it
    with the study's name, and enters its key in the mapping under the trial's
    number; one record is created. *)
Theorem trial_experiment_created self study trial w :
  _trial_experiments self !! number trial = None →
  let r := _init_optuna_trial_experiment fresh_key self study trial w in
  let e := r.1.1 in
  ∃ pre,
    (pre = [] ∨
     ∃ a, pre = [end_ a] ∧ active_experiment w = Some a ∧ ended_of w a = false) ∧
    calls r.2 = calls w ++ pre ++
      [construct Experiment
         (workspace_project (_workspace self) (_project_name self)) e;
       add_tag e "optuna_trial";
       log_other e "optuna_study_name" (OStr (study_name study))] ∧
    records r.2 = S (records w) ∧
    key_of r.2 e = fresh_key (records w) ∧
    _trial_experiments r.1.2
      = <[number trial := fresh_key (records w)]> (_trial_experiments self).
Proof.
  intros Hnone. simpl.
  assert (Hlm : ∀ w0,
    let r := load_or_make fresh_key self study trial
               (_trial_experiments self !! number trial) w0 in
    calls r.2 = calls w0 ++
      [construct Experiment
         (workspace_project (_workspace self) (_project_name self)) r.1.1;
       add_tag r.1.1 "optuna_trial";
       log_other r.1.1 "optuna_study_name" (OStr (study_name study))] ∧
    records r.2 = S (records w0) ∧
    key_of r.2 r.1.1 = fresh_key (records w0) ∧
    _trial_experiments r.1.2
      = <[number trial := fresh_key (records w0)]> (_trial_experiments self)).
  { intros w0. simpl. rewrite load_or_make_create by (by rewrite Hnone).
    simpl. repeat split. unfold key_of; simpl.
    by rewrite list_lookup_middle. }
  destruct (init_trial_cases self study trial w)
    as [(a & Ha & Hk & ->) | [(a & Ha & Hk & He & ->) | (Hc & ->)]].
  - congruence.
  - destruct (Hlm (end_experiment a w).2) as (Hc & Hr & Hkey & Hm).
    destruct (end_experiment_facts a w) as (_ & Hr1 & Hc1 & _).
    exists [end_ a]. split; [right; eauto|].
    rewrite Hc, Hr, Hkey, Hm, Hr1, Hc1. by rewrite <- app_assoc.
  - destruct (Hlm w) as (Hc' & Hr & Hkey & Hm).
    exists []. split; [by left|]. by rewrite Hc', Hr, Hkey, Hm.
Qed.

(** X7: when a non-empty identifier is stored for the trial, the resolution
    creates no record and leaves the callback as it is; the experiment it
    returns is attached to the stored identifier, and the only constructor
    call it can issue is [ExistingExperiment] with that identifier. *)
Theorem trial_experiment_resumed self study trial k w :
  _trial_experiments self !! number trial = Some k → k ≠ "" →
  let r := _init_optuna_trial_experiment fresh_key self study trial w in
  r.1.2 = self ∧
  records r.2 = records w ∧
  key_of r.2 r.1.1 = k ∧
  ∀ cls args e, construct cls args e ∈ drop (length (calls w)) (calls r.2) →
    cls = ExistingExperiment ∧ args = previous_experiment k ∧ e = r.1.1.
Proof.
  intros Hk Hne. simpl.
  assert (Hlm : ∀ w0,
    let r := load_or_make fresh_key self study trial
               (_trial_experiments self !! number trial) w0 in
    r.1.2 = self ∧ records r.2 = records w0 ∧ key_of r.2 r.1.1 = k ∧
    calls r.2 = calls w0 ++
      [construct ExistingExperiment (previous_experiment k) r.1.1]).
  { intros w0. simpl. rewrite Hk, load_or_make_resume by done. simpl.
    repeat split. unfold key_of; simpl. by rewrite list_lookup_middle. }
  destruct (init_trial_cases self study trial w)
    as [(a & Ha & Hk' & ->) | [(a & Ha & Hk' & He & ->) | (Hc & ->)]].
  - simpl. repeat split; try congruence.
    all: rewrite drop_all in H; by apply elem_of_nil in H.
  - destruct (Hlm (end_experiment a w).2) as (Hs & Hr & Hkey & Hc).
    destruct (end_experiment_facts a w) as (_ & Hr1 & Hc1 & _).
    rewrite Hs, Hr, Hkey, Hc, Hr1, Hc1, <- app_assoc, drop_app_length.
    split; [done|]. split; [done|]. split; [done|].
    intros cls args e Hin. simpl in Hin.
    apply elem_of_cons in Hin as [Hin|Hin]; [done|].
    apply list_elem_of_singleton in Hin. by simplify_eq.
  - destruct (Hlm w) as (Hs & Hr & Hkey & Hc').
    rewrite Hs, Hr, Hkey, Hc', drop_app_length.
    split; [done|]. split; [done|]. split; [done|].
    intros cls args e Hin.
    apply list_elem_of_singleton in Hin. by simplify_eq.
Qed.

(** X8: resolving the same trial again, right after a resolution, returns
    the same experiment and changes nothing: no call is issued, no object is
    made, and the callback is left as it is. *)
Theorem resolution_idempotent self study study' trial w :
  let r := _init_optuna_trial_experiment fresh_key self study trial w in
  _init_optuna_trial_experiment fresh_key r.1.2 study' trial r.2
  = ((r.1.1, r.1.2), r.2).
Proof.
  simpl. destruct (init_trial_key self study trial w) as [Hact Hkey].
  by apply init_trial_early.
Qed.

(** X9: a resolution changes the callback at most in the mapping's entry for
    the trial's number: the entries of the other trials and the callback's
    workspace, project, metric names and StudyExperiment stay as they are. *)
Theorem resolution_frame self study trial w :
  let r := _init_optuna_trial_experiment fresh_key self study trial w in
  delete (number trial) (_trial_experiments r.1.2)
    = delete (number trial) (_trial_experiments self) ∧
  _workspace r.1.2 = _workspace self ∧
  _project_name r.1.2 = _project_name self ∧
  _metric_names r.1.2 = _metric_names self ∧
  study_experiment r.1.2 = study_experiment self.
Proof.
  assert (Hlm : ∀ w0,
    let r := load_or_make fresh_key self study trial
               (_trial_experiments self !! number trial) w0 in
    delete (number trial) (_trial_experiments r.1.2)
      = delete (number trial) (_trial_experiments self) ∧
    _workspace r.1.2 = _workspace self ∧
    _project_name r.1.2 = _project_name self ∧
    _metric_names r.1.2 = _metric_names self ∧
    study_experiment r.1.2 = study_experiment self).
  { intros w0.
    destruct (truthy (_trial_experiments self !! number trial)) eqn:Ht.
    - destruct (_trial_experiments self !! number trial) as [k|] eqn:Hk;
        [|done].
      apply truthy_Some in Ht. simpl.
      by rewrite (load_or_make_resume _ _ _ k) by done.
    - simpl. rewrite load_or_make_create by done. simpl.
      by rewrite delete_insert_eq. }
  destruct (init_trial_cases self study trial w)
    as [(a & Ha & Hk & ->) | [(a & Ha & Hk & He & ->) | (Hc & ->)]].
  - done.
  - apply Hlm.
  - apply Hlm.
Qed.

(** X11: the only experiment a resolution ends is the active one, and only
    when it is open and its key is not the one stored for the trial; it is
    ended at most once. *)
Theorem resolution_ends_only_open_active self study trial w :
  let r := _init_optuna_trial_experiment fresh_key self study trial w in
  let new := drop (length (calls w)) (calls r.2) in
  (∀ e, end_ e ∈ new →
     active_experiment w = Some e ∧ ended_of w e = false ∧
     _trial_experiments self !! number trial ≠ Some (key_of w e)) ∧
  (∀ i j e e', new !! i = Some (end_ e) → new !! j = Some (end_ e') → i = j).
Proof.
  simpl.
  assert (Hlm : ∀ w0,
    let r := load_or_make fresh_key self study trial
               (_trial_experiments self !! number trial) w0 in
    ∃ rest, calls r.2 = calls w0 ++ rest ∧ ∀ i e, rest !! i ≠ Some (end_ e)).
  { intros w0.
    destruct (truthy (_trial_experiments self !! number trial)) eqn:Ht.
    - destruct (_trial_experiments self !! number trial) as [k|] eqn:Hk;
        [|done].
      apply truthy_Some in Ht. simpl.
      rewrite (load_or_make_resume _ _ _ k) by done. simpl.
      eexists. split; [done|]. by intros [|[|]] e.
    - simpl. rewrite load_or_make_create by done. simpl.
      eexists. split; [done|]. by intros [|[|[|[|]]]] e. }
  destruct (init_trial_cases self study trial w)
    as [(a & Ha & Hk & ->) | [(a & Ha & Hk & He & ->) | (Hc & ->)]].
  - simpl. rewrite drop_all. split.
    + intros e Hin. by apply elem_of_nil in Hin.
    + by intros i j e e' Hi.
  - destruct (Hlm (end_experiment a w).2) as (rest & Hc & Hrest).
    destruct (end_experiment_facts a w) as (_ & _ & Hc1 & _).
    rewrite Hc, Hc1, <- app_assoc, drop_app_length. simpl. split.
    + intros e Hin. apply elem_of_cons in Hin as [Hin|Hin].
      * by simplify_eq.
      * apply list_elem_of_lookup in Hin as [i Hi]. by apply Hrest in Hi.
    + intros [|i] [|j] e e' Hi Hj; simpl in *; try done.
      * by apply Hrest in Hj.
      * by apply Hrest in Hi.
      * by apply Hrest in Hi.
  - destruct (Hlm w) as (rest & Hc' & Hrest).
    rewrite Hc', drop_app_length. split.
    + intros e Hin. apply list_elem_of_lookup in Hin as [i Hi].
      by apply Hrest in Hi.
    + intros i j e e' Hi. by apply Hrest in Hi.
Qed.

(** *** Further properties of the per-trial callback *)

(** A resolution keeps the invariant that every open TrialExperiment is the
    one the module attribute points to. *)
Lemma init_trial_keeps_invariant self study trial w :
  at_most_one_active w →
  at_most_one_active
    (_init_optuna_trial_experiment fresh_key self study trial w).2.
Proof.
  intros Hinv.
  set (ek := _trial_experiments self !! number trial).
  assert (Hlm : ∀ w0,
    length (objects w0) = length (objects w) →
    (∀ l o, objects w0 !! l = Some o → is_trial_experiment o = true →
            exp_ended o = false → False) →
    at_most_one_active (load_or_make fresh_key self study trial ek w0).2).
  { intros w0 Hlen Hnone.
    destruct (load_or_make_facts self study trial ek w0)
      as (_ & Hact & (o & Ho & _ & _) & _).
    intros l o' Hl Hto Hopo. rewrite Hact. rewrite Ho in Hl. f_equal.
    destruct (decide (l < length (objects w0))%nat) as [Hlt|Hge].
    - rewrite lookup_app_l in Hl by done. by destruct (Hnone l o').
    - apply lookup_lt_Some in Hl. rewrite length_app in Hl.
      cbn [length] in Hl. lia. }
  destruct (init_trial_cases self study trial w)
    as [(a & Ha & Hk & ->) | [(a & Ha & Hk & He & ->) | (Hc & ->)]];
    fold ek in Hk || fold ek in Hc; fold ek.
  - done.
  - apply Hlm.
    + by destruct (end_experiment_facts a w) as (-> & _).
    + intros l o Hl Hto Hopo.
      apply end_experiment_lookup in Hl as (o' & Hl & Hcls & _ & Hop).
      destruct (Hop Hopo) as [Hne Hop'].
      assert (Ht' : is_trial_experiment o' = true)
        by (unfold is_trial_experiment in *; by rewrite <- Hcls).
      specialize (Hinv l o' Hl Ht' Hop'). congruence.
  - apply Hlm; [done|].
    intros l o Hl Hto Hopo. specialize (Hinv l o Hl Hto Hopo).
    destruct Hc as [Hn | (a & Ha & _ & He)]; [congruence|].
    assert (a = l) by congruence. subst a.
    unfold ended_of in He. rewrite Hl in He. simpl in He. congruence.
Qed.

(** X4: every invocation of the callback logs, on the trial's experiment and
    right after resolving it, the trial's parameters, its number as the
    annotation [trial_number] and the tag [trial_number_N], in that order.
    The invocation returns exactly when its values are logged as metrics or
    its reads of [trial.value] and [study.direction] succeed; then the
    objective values follow (metrics or one optimisation result), then the
    [best_trials] annotation and, last, the [end] of the trial's experiment.
    When a read raises, no further call is issued: neither the annotation
    nor the [end].  The callback is left as the resolution leaves it. *)
Theorem trial_bookkeeping_logged self study trial w :
  let r0 := _init_optuna_trial_experiment fresh_key self study trial w in
  let te := r0.1.1 in
  let r := __call__ fresh_key self study trial w in
  r.1.1 = r0.1.2 ∧
  (r.1.2 = inr tt ↔ reads_succeed study trial = true) ∧
  ∃ tail,
    calls r.2 = calls r0.2 ++
      [log_parameters te (params trial);
       log_other te "trial_number" (OInt (number trial));
       add_tag te ("trial_number_" +:+ pretty (number trial))] ++
      tail ∧
    (r.1.2 = inr tt →
       ∃ objective_calls,
         tail = objective_calls ++
           [log_other (study_experiment self) "best_trials"
              (OStr (json_dumps (number <$> best_trials study)));
            end_ te] ∧
         ∀ c, c ∈ objective_calls →
           is_log_metric c = true ∨ is_log_optimization c = true) ∧
    (∀ exc, r.1.2 = inl exc → tail = []).
Proof.
  simpl. rewrite call_unfold.
  destruct (init_trial_calls self study trial w) as (_ & Hse & _).
  unfold reads_succeed.
  destruct (multi_objective (values trial));
    [|destruct (value trial) as [exc|mv];
      [|destruct (direction study) as [exc|d]]];
    simpl; rewrite ?Hse; (split; [done|]); (split; [by split|]).
  - match goal with
    | |- ∃ tail, (_ ++ _ :: _ :: _ :: ?body ++ [?best]) ++ [?e] = _ ∧ _ =>
        exists (body ++ [best; e])
    end.
    split; [by norm_app|]. split; [|by intros exc [=]].
    intros _. eexists. split; [reflexivity|]. intros c Hc.
    apply elem_of_lookup_imap in Hc as (i & v & -> & _). by left.
  - exists []. split; [done|]. split; [by intros [=]|done].
  - exists []. split; [done|]. split; [by intros [=]|done].
  - match goal with
    | |- ∃ tail, (_ ++ [_; _; _; ?opt; ?best]) ++ [?e] = _ ∧ _ =>
        exists ([opt] ++ [best; e])
    end.
    split; [by norm_app|]. split; [|by intros exc [=]].
    intros _. eexists. split; [reflexivity|]. intros c Hc.
    apply list_elem_of_singleton in Hc as ->. by right.
Qed.

(** X5: when at most one TrialExperiment is open before an invocation of the
    callback, and it is the active one, the same holds after the invocation;
    and when the invocation returns, no TrialExperiment is open after it: the
    callback ends the experiment it logged to. *)
Theorem callback_closes_trial_experiments self study trial w :
  at_most_one_active w →
  let r := __call__ fresh_key self study trial w in
  at_most_one_active r.2 ∧
  (r.1.2 = inr tt →
   ∀ l o, objects r.2 !! l = Some o → is_trial_experiment o = true →
          exp_ended o = true).
Proof.
  intros Hinv. simpl. rewrite call_unfold.
  pose proof (init_trial_keeps_invariant self study trial w Hinv) as Hinv'.
  destruct (init_trial_key self study trial w) as [Hact _].
  assert (Hclosed : ∀ cs l o,
    objects (end_experiment
               (_init_optuna_trial_experiment fresh_key self study trial w).1.1
               (add_calls cs
                  (_init_optuna_trial_experiment fresh_key self study trial w).2)).2
      !! l = Some o →
    is_trial_experiment o = true → exp_ended o = true).
  { intros cs l o Hl Hto. destruct (exp_ended o) eqn:Hopo; [done|].
    apply end_experiment_lookup in Hl as (o' & Hl & Hcls & _ & Hop).
    destruct (Hop Hopo) as [Hne Hop'].
    assert (Ht' : is_trial_experiment o' = true)
      by (unfold is_trial_experiment in *; by rewrite <- Hcls).
    specialize (Hinv' l o' Hl Ht' Hop'). simpl in Hne. congruence. }
  destruct (multi_objective (values trial));
    [|destruct (value trial) as [exc|mv];
      [|destruct (direction study) as [exc|d]]]; cbn [fst snd].
  - split; [|intros _; exact (Hclosed _)].
    intros l o Hl Hto Hopo. by rewrite (Hclosed _ l o Hl Hto) in Hopo.
  - split; [exact Hinv'|by intros [=]].
  - split; [exact Hinv'|by intros [=]].
  - split; [|intros _; exact (Hclosed _)].
    intros l o Hl Hto Hopo. by rewrite (Hclosed _ l o Hl Hto) in Hopo.
Qed.

(** X12: when the objective function leaves the module attribute pointing to
    the experiment it was given, and that experiment's key as it is, the
    callback invoked after the wrapper for the same trial finds that
    experiment: its resolution issues no call and changes nothing, and the
    callback's first calls, the trial's parameters, number and tag, go to
    that experiment. *)
Theorem callback_after_wrapper {R} self study (func : Trial → M R) trial w :
  (∀ t w0 a, active_experiment w0 = Some a →
     active_experiment (func t w0).2 = Some a ∧
     key_of (func t w0).2 a = key_of w0 a) →
  let e := (_init_optuna_trial_experiment fresh_key self study trial w).1.1 in
  let r := track_in_comet fresh_key self study func trial w in
  _init_optuna_trial_experiment fresh_key r.1.2 study trial r.2
    = ((e, r.1.2), r.2) ∧
  ∃ tail,
    calls (__call__ fresh_key r.1.2 study trial r.2).2 = calls r.2 ++
      [log_parameters e (params trial);
       log_other e "trial_number" (OInt (number trial));
       add_tag e ("trial_number_" +:+ pretty (number trial))] ++
      tail.
Proof.
  intros Hfunc. simpl.
  destruct (init_trial_key self study trial w) as [Hact Hkey].
  unfold track_in_comet. run.
  destruct (_init_optuna_trial_experiment fresh_key self study trial w)
    as [[e self'] w1]. simpl in *.
  destruct (Hfunc (set_experiment trial e) w1 e Hact) as [Hact2 Hkey2].
  destruct (func (set_experiment trial e) w1) as [res w2]. simpl in *.
  assert (Hearly :
    _init_optuna_trial_experiment fresh_key self' study trial w2
    = ((e, self'), w2)).
  { apply init_trial_early; [done|]. by rewrite Hkey2. }
  split; [done|].
  rewrite call_unfold, Hearly.
  destruct (multi_objective (values trial));
    [|destruct (value trial) as [exc|mv];
      [|destruct (direction study) as [exc|d]]]; simpl.
  - match goal with
    | |- ∃ tail, (_ ++ _ :: _ :: _ :: ?body ++ [?best]) ++ [?e] = _ =>
        exists (body ++ [best; e])
    end.
    by norm_app.
  - by exists [].
  - by exists [].
  - match goal with
    | |- ∃ tail, (_ ++ [_; _; _; ?opt; ?best]) ++ [?e] = _ =>
        exists ([opt] ++ [best; e])
    end.
    by norm_app.
Qed.

(** *** Further properties of construction *)

(** What [__init__] does, with the study-experiment resolution as a step. *)
Lemma init_unfold study workspace project_name metric_names w :
  let ws := default (default_workspace w) workspace in
  let w0 := match workspace with
            | Some _ => w
            | None => add_calls [get_default_workspace] w
            end in
  let names := default [] metric_names in
  let r1 := _init_optuna_study_experiment fresh_key ws project_name study w0 in
  __init__ fresh_key study workspace project_name metric_names w
  = (({| _project_name := project_name;
         _workspace := ws;
         _metric_names := names;
         study_experiment := r1.1.1;
         _trial_experiments :=
           default ∅ (trial_experiments (user_attrs r1.1.2)) |}, r1.1.2),
     add_calls
       (imap (λ i d,
                log_other r1.1.1
                  ("direction_of_objective_" +:+
                     format (metric_name_at names i))
                  (OStr (if decide (d = MINIMIZE) then "minimize"
                         else "maximize")))
          (directions r1.1.2)) r1.2).
Proof.
  simpl. unfold __init__, mbind, M_bind, mret, M_ret.
  destruct workspace as [ws|], metric_names as [names|]; simpl;
    destruct (_init_optuna_study_experiment fresh_key _ project_name study _)
      as [[se study'] w1]; simpl;
    rewrite for_enumerate_call; simpl;
    by destruct (trial_experiments (user_attrs study')).
Qed.

(** The study-experiment resolution makes one [APIExperiment] object, leaves
    the module attribute and every attribute of the study but
    [comet_study_experiment_key] alone, and never asks for the default
    workspace; a record it creates is in the given workspace and project. *)
Lemma study_experiment_frame ws pn study w :
  let r := _init_optuna_study_experiment fresh_key ws pn study w in
  r.1.1 = length (objects w) ∧
  active_experiment r.2 = active_experiment w ∧
  (∃ o, objects r.2 = objects w ++ [o] ∧ exp_class o = APIExperiment) ∧
  (records r.2 ≤ S (records w))%nat ∧
  trial_experiments (user_attrs r.1.2) = trial_experiments (user_attrs study) ∧
  study_name r.1.2 = study_name study ∧
  directions r.1.2 = directions study ∧
  direction r.1.2 = direction study ∧
  storage_class_name r.1.2 = storage_class_name study ∧
  best_trials r.1.2 = best_trials study ∧
  ∃ pre, calls r.2 = calls w ++ pre ∧
    (get_default_workspace ∉ pre) ∧
    (∀ i e, pre !! i ≠ Some (end_ e)) ∧
    ∀ cls ws' pn' e, construct cls (workspace_project ws' pn') e ∈ pre →
      cls = APIExperiment ∧ ws' = ws ∧ pn' = pn.
Proof.
  unfold _init_optuna_study_experiment. run.
  destruct (truthy _); simpl.
  - repeat split; eauto. eexists. split; [done|]. split; [|split].
    + intros Hin. by apply list_elem_of_singleton in Hin.
    + by intros [|[|]] e.
    + intros cls ws' pn' e Hin. by apply list_elem_of_singleton in Hin.
  - repeat split; eauto. eexists. split; [by rewrite <- ?app_assoc|].
    split; [|split].
    + intros Hin. repeat (apply elem_of_cons in Hin as [Hin|Hin]; [done|]).
      by apply elem_of_nil in Hin.
    + by intros [|[|[|[|[|]]]]] e.
    + intros cls ws' pn' e Hin.
      apply elem_of_cons in Hin as [Hin|Hin]; [by simplify_eq|].
      repeat (apply elem_of_cons in Hin as [Hin|Hin]; [done|]).
      by apply elem_of_nil in Hin.
Qed.

(** X3: when the study holds no key, or the empty string, under
    [comet_study_experiment_key], the resolution creates one record in the
    given workspace and project, tags it [optuna_study], annotates it with the
    study's name and the class name of its storage, and stores the record's
    key in the study; the other attributes of the study stay as they are. *)
Theorem study_experiment_created ws pn study w :
  comet_study_experiment_key (user_attrs study) = None ∨
  comet_study_experiment_key (user_attrs study) = Some "" →
  let r := _init_optuna_study_experiment fresh_key ws pn study w in
  let e := r.1.1 in
  calls r.2 = calls w ++
    [construct APIExperiment (workspace_project ws pn) e;
     add_tag e "optuna_study";
     log_other e "optuna_study_name" (OStr (study_name study));
     log_other e "optuna_storage" (OStr (storage_class_name study))] ∧
  records r.2 = S (records w) ∧
  key_of r.2 e = fresh_key (records w) ∧
  comet_study_experiment_key (user_attrs r.1.2)
    = Some (fresh_key (records w)) ∧
  trial_experiments (user_attrs r.1.2) = trial_experiments (user_attrs study) ∧
  study_name r.1.2 = study_name study ∧
  directions r.1.2 = directions study ∧
  best_trials r.1.2 = best_trials study.
Proof.
  intros Hkey. simpl.
  rewrite study_experiment_create by (by destruct Hkey as [-> | ->]).
  simpl. split; [by norm_app|]. repeat split.
  unfold key_of; simpl. by rewrite list_lookup_middle.
Qed.

(** X1: construction takes the given workspace, and asks the account for its
    default workspace exactly when none is given; the workspace it ends up
    with and the given project are the ones a record created for the study
    is placed in. *)
Theorem workspace_resolved study workspace project_name metric_names w :
  let r := __init__ fresh_key study workspace project_name metric_names w in
  let new := drop (length (calls w)) (calls r.2) in
  _workspace r.1.1 = default (default_workspace w) workspace ∧
  _project_name r.1.1 = project_name ∧
  (get_default_workspace ∈ new ↔ workspace = None) ∧
  ∀ cls ws pn e, construct cls (workspace_project ws pn) e ∈ new →
    cls = APIExperiment ∧ ws = _workspace r.1.1 ∧ pn = project_name.
Proof.
  simpl. rewrite init_unfold. simpl.
  set (ws := default (default_workspace w) workspace).
  set (w0 := match workspace with
             | Some _ => w
             | None => add_calls [get_default_workspace] w
             end).
  destruct (study_experiment_frame ws project_name study w0)
    as (_ & _ & _ & _ & _ & _ & _ & _ & _ & _ & pre & Hpre & Hndw & _ & Hctor).
  rewrite Hpre.
  set (dirs := imap _ _).
  assert (Hdirs : ∀ c, c ∈ dirs → ∃ e k v, c = log_other e k v).
  { intros c Hc. apply elem_of_lookup_imap in Hc as (i & d & -> & _). eauto. }
  split; [done|]. split; [done|].
  destruct workspace as [ws0|]; subst w0; simpl.
  - rewrite <- app_assoc, drop_app_length. split; [split; [|done]|].
    + intros Hin. apply elem_of_app in Hin as [Hin|Hin]; [done|].
      by destruct (Hdirs _ Hin) as (e & k & v & ?).
    + intros cls ws' pn e Hin. apply elem_of_app in Hin as [Hin|Hin].
      * exact (Hctor _ _ _ _ Hin).
      * by destruct (Hdirs _ Hin) as (e' & k & v & ?).
  - rewrite <- !app_assoc, drop_app_length. split; [split; [done|]|].
    + intros _. apply elem_of_cons. by left.
    + intros cls ws' pn e Hin. simpl in Hin.
      apply elem_of_cons in Hin as [Hin|Hin]; [done|].
      apply elem_of_app in Hin as [Hin|Hin].
      * exact (Hctor _ _ _ _ Hin).
      * by destruct (Hdirs _ Hin) as (e' & k & v & ?).
Qed.

(** X2: the callback starts from the mapping the study holds under
    [trial_experiments], or from the empty mapping when it holds none, and
    from the given metric names, or none; construction writes nothing under
    [trial_experiments] and leaves the study's name, directions and best
    trials as they are. *)
Theorem trial_mapping_loaded study workspace project_name metric_names w :
  let r := __init__ fresh_key study workspace project_name metric_names w in
  _trial_experiments r.1.1
    = default ∅ (trial_experiments (user_attrs study)) ∧
  _metric_names r.1.1 = default [] metric_names ∧
  trial_experiments (user_attrs r.1.2) = trial_experiments (user_attrs study) ∧
  study_name r.1.2 = study_name study ∧
  directions r.1.2 = directions study ∧
  best_trials r.1.2 = best_trials study.
Proof.
  simpl. rewrite init_unfold. simpl.
  destruct (study_experiment_frame
              (default (default_workspace w) workspace) project_name study
              match workspace with
              | Some _ => w
              | None => add_calls [get_default_workspace] w
              end)
    as (_ & _ & _ & _ & Hte & Hname & Hdirs & _ & _ & Hbest & _).
  by rewrite Hte.
Qed.

(** X10: construction makes one client object, the [APIExperiment] the
    callback keeps as [study_experiment]; it creates at most one record, ends
    no experiment, leaves the module attribute [active_experiment] as it is,
    and keeps the invariant that every open TrialExperiment is the active
    one. *)
Theorem construction_leaves_trials_alone study workspace project_name
    metric_names w :
  let r := __init__ fresh_key study workspace project_name metric_names w in
  active_experiment r.2 = active_experiment w ∧
  study_experiment r.1.1 = length (objects w) ∧
  (∃ o, objects r.2 = objects w ++ [o] ∧ exp_class o = APIExperiment) ∧
  (records r.2 ≤ S (records w))%nat ∧
  (∀ i e, drop (length (calls w)) (calls r.2) !! i ≠ Some (end_ e)) ∧
  (at_most_one_active w → at_most_one_active r.2).
Proof.
  simpl. rewrite init_unfold. simpl.
  set (ws := default (default_workspace w) workspace).
  set (w0 := match workspace with
             | Some _ => w
             | None => add_calls [get_default_workspace] w
             end).
  assert (Hw0 : objects w0 = objects w ∧
                active_experiment w0 = active_experiment w ∧
                records w0 = records w ∧
                ∃ pre0, calls w0 = calls w ++ pre0 ∧
                        ∀ i e, pre0 !! i ≠ Some (end_ e)).
  { unfold w0. destruct workspace; simpl.
    - repeat split. exists []. by rewrite app_nil_r.
    - repeat split. eexists. split; [done|]. by intros [|[|]] e. }
  destruct Hw0 as (Hobj & Hact0 & Hrec & pre0 & Hpre0 & Hend0).
  destruct (study_experiment_frame ws project_name study w0)
    as (He & Hact & (o & Ho & Hcls) & Hr & _ & _ & _ & _ & _ & _ &
        pre & Hpre & _ & Hend & _).
  rewrite Hact, Hact0, He, Ho, Hobj, Hpre, Hpre0.
  split; [done|]. split; [done|]. split; [eauto|]. split; [lia|]. split.
  - rewrite <- !app_assoc, drop_app_length. intros i e Hi.
    apply lookup_app_Some in Hi as [Hi | [_ Hi]]; [by apply Hend0 in Hi|].
    apply lookup_app_Some in Hi as [Hi | [_ Hi]]; [by apply Hend in Hi|].
    apply list_lookup_imap_Some in Hi as (d & _ & Hd). done.
  - intros Hinv l o' Hl Hto Hopo.
    unfold add_calls in Hl |- *. cbn [objects active_experiment] in Hl |- *.
    rewrite Ho, Hobj in Hl. rewrite Hact, Hact0.
    destruct (decide (l < length (objects w))%nat) as [Hlt|Hge].
    + rewrite lookup_app_l in Hl by done. by apply (Hinv l o').
    + assert (l = length (objects w)).
      { apply lookup_lt_Some in Hl. rewrite length_app in Hl.
        cbn [length] in Hl. lia. }
      subst l. rewrite list_lookup_middle in Hl by done.
      injection Hl as <-. unfold is_trial_experiment in Hto.
      by rewrite Hcls in Hto.
Qed.

End Properties.

Example json_dumps_numbers : json_dumps [0; 1; 12]%Z = "[0, 1, 12]".
Proof. reflexivity. Qed.

Example json_dumps_empty : json_dumps [] = "[]".
Proof. reflexivity. Qed.

(** Construction on a new study: one record, tagged and annotated, then the
    direction of the one objective under its index. *)
Example construction_calls :
  calls constructed.2 =
    [get_default_workspace;
     construct APIExperiment (workspace_project "team" (Some "general")) 0;
     add_tag 0 "optuna_study";
     log_other 0 "optuna_study_name" (OStr "study");
     log_other 0 "optuna_storage" (OStr "InMemoryStorage");
     log_other 0 "direction_of_objective_0" (OStr "minimize")].
Proof. reflexivity. Qed.

(** The callback on trial 0 and then trial 1, with no metric names. *)
Example two_trials_calls :
  let r0 := __call__ service_key constructed.1.1 new_study trial_0
              constructed.2 in
  let r1 := __call__ service_key r0.1.1 new_study trial_1 r0.2 in
  drop 6 (calls r1.2) =
    [construct Experiment (workspace_project "team" (Some "general")) 1;
     add_tag 1 "optuna_trial";
     log_other 1 "optuna_study_name" (OStr "study");
     log_parameters 1 [("lr", "0.01")];
     log_other 1 "trial_number" (OInt 0);
     add_tag 1 "trial_number_0";
     log_optimization 1 "study" "objective_value" (Some "0.42")
       [("lr", "0.01")] MINIMIZE;
     log_other 0 "best_trials" (OStr "[0]");
     end_ 1;
     construct Experiment (workspace_project "team" (Some "general")) 2;
     add_tag 2 "optuna_trial";
     log_other 2 "optuna_study_name" (OStr "study");
     log_parameters 2 [("lr", "0.1")];
     log_other 2 "trial_number" (OInt 1);
     add_tag 2 "trial_number_1";
     log_metric 2 "0" "0.1";
     log_metric 2 "1" "0.9";
     log_other 0 "best_trials" (OStr "[0]");
     end_ 2].
Proof. reflexivity. Qed.

Lemma service_key_nonempty n : service_key n ≠ "".
Proof. unfold service_key. simpl. discriminate. Qed.

(** C1, as stated, fails for a study that holds the empty string under
    [comet_study_experiment_key]: the resolution takes the stored value for
    missing, so it creates a record, tags and annotates it, and overwrites the
    study's attribute. *)
Lemma empty_stored_key_creates_record :
  let r := _init_optuna_study_experiment service_key "team" (Some "general")
             empty_key_study fresh_process in
  comet_study_experiment_key (user_attrs empty_key_study) = Some "" ∧
  records r.2 = S (records fresh_process) ∧
  calls r.2 =
    [construct APIExperiment (workspace_project "team" (Some "general")) 0;
     add_tag 0 "optuna_study";
     log_other 0 "optuna_study_name" (OStr "study");
     log_other 0 "optuna_storage" (OStr "InMemoryStorage")] ∧
  comet_study_experiment_key (user_attrs r.1.2) = Some "key0".
Proof. by vm_compute. Qed.

(** C1 (amended) on a study with a stored key, and on a new study resolved
    twice. *)
Lemma study_experiment_resolved_once_witness :
  (let r := _init_optuna_study_experiment service_key "team" (Some "general")
              keyed_study fresh_process in
   r.1.2 = keyed_study ∧
   records r.2 = records fresh_process ∧
   calls r.2 = calls fresh_process ++
     [construct APIExperiment (previous_experiment "abc123") r.1.1] ∧
   key_of r.2 r.1.1 = "abc123") ∧
  (let r := _init_optuna_study_experiment service_key "team" (Some "general")
              new_study fresh_process in
   (records r.2 ≤ S (records fresh_process))%nat ∧
   ∃ k, k ≠ "" ∧
     comet_study_experiment_key (user_attrs r.1.2) = Some k ∧
     key_of r.2 r.1.1 = k ∧
     ∀ ws' pn' w',
       let r' := _init_optuna_study_experiment service_key ws' pn' r.1.2 w' in
       r'.1.2 = r.1.2 ∧
       records r'.2 = records w' ∧
       calls r'.2 = calls w' ++
         [construct APIExperiment (previous_experiment k) r'.1.1] ∧
       key_of r'.2 r'.1.1 = k).
Proof.
  split.
  - apply (proj1 (study_experiment_resolved_once service_key "team"
                    (Some "general") keyed_study fresh_process) "abc123").
    + reflexivity.
    + discriminate.
  - apply (proj2 (study_experiment_resolved_once service_key "team"
                    (Some "general") new_study fresh_process)).
    apply service_key_nonempty.
Defined.

(** C2 fails on a new study: the TrialExperiment made for trial 0 is entered
    in the callback's dictionary, while the study, which is not written after
    construction, holds nothing under [trial_experiments]. *)
Lemma trial_mapping_not_persisted :
  let self := constructed.1.1 in
  let study := constructed.1.2 in
  let r := _init_optuna_trial_experiment service_key self study trial_0
             constructed.2 in
  _trial_experiments self !! number trial_0 = None ∧
  records r.2 = S (records constructed.2) ∧
  _trial_experiments r.1.2 !! number trial_0 = Some "key1" ∧
  comet_study_experiment_key (user_attrs study) = Some "key0" ∧
  trial_experiments (user_attrs study) = None.
Proof. by vm_compute. Qed.

(** C3 at the switch from the open experiment of trial 0 to trial 1. *)
Lemma one_active_trial_experiment_witness :
  let r := _init_optuna_trial_experiment service_key named_callback new_study
             trial_1 trial_0_active in
  active_experiment r.2 = Some r.1.1 ∧
  at_most_one_active r.2 ∧
  r.1.1 ≠ 1%nat ∧ ended_of r.2 1 = true ∧ ended_of r.2 r.1.1 = false ∧
  ∃ cls args rest,
    calls r.2 =
      calls trial_0_active ++ end_ 1 :: construct cls args r.1.1 :: rest.
Proof.
  pose proof (one_active_trial_experiment service_key named_callback new_study
                trial_1 trial_0_active) as (Hact & Hinv & Hswitch).
  split; [exact Hact|]. split.
  - apply Hinv. intros l o Hl Ht Hopen.
    destruct l as [|[|l]]; simpl in Hl; [| |done].
    + injection Hl as <-. discriminate Ht.
    + reflexivity.
  - apply (Hswitch 1%nat); [reflexivity | discriminate | reflexivity].
Defined.

(** C7 when the callback is called for trial 0 while its experiment is the
    active one. *)
Lemma active_experiment_reused_witness :
  active_experiment trial_0_active = Some 1%nat ∧
  _trial_experiments named_callback !! number trial_0 = Some "key1" ∧
  key_of trial_0_active 1 = "key1" ∧
  _init_optuna_trial_experiment service_key named_callback new_study trial_0
    trial_0_active = ((1%nat, named_callback), trial_0_active).
Proof.
  split; [reflexivity|]. split; [reflexivity|]. split; [reflexivity|].
  apply (active_experiment_reused service_key named_callback new_study trial_0
           1%nat "key1" trial_0_active); reflexivity.
Defined.

(** C5 on the trial with the one value 0.42 and no metric names. *)
Lemma single_objective_logged_witness :
  values trial_0 = Some ["0.42"] ∧
  value trial_0 = inr (Some "0.42") ∧
  ∃ new,
    calls (__call__ service_key constructed.1.1 new_study trial_0
             constructed.2).2 = calls constructed.2 ++ new ∧
    (__call__ service_key constructed.1.1 new_study trial_0
       constructed.2).1.2 = inr tt ∧
    List.filter is_log_optimization new =
      [log_optimization 1 "study" "objective_value" (Some "0.42")
         [("lr", "0.01")] MINIMIZE] ∧
    List.filter is_log_metric new = [].
Proof.
  split; [reflexivity|].
  destruct (single_objective_logged service_key constructed.1.1 new_study
              trial_0 "0.42" constructed.2 eq_refl)
    as (Hval & new & Hcalls & Hnm & Hok & _).
  split; [exact Hval|]. exists new. split; [exact Hcalls|].
  destruct (Hok MINIMIZE eq_refl) as [Hret Hopt].
  split; [exact Hret|]. split; [exact Hopt|exact Hnm].
Defined.

(** C6 on the trial with values 0.1 and 0.9 and the names loss and acc. *)
Lemma multi_objective_logged_witness :
  values trial_1 = Some ["0.1"; "0.9"] ∧
  ∃ new,
    calls (__call__ service_key named_callback new_study trial_1
             trial_0_active).2 = calls trial_0_active ++ new ∧
    List.filter is_log_metric new =
      [log_metric 2 "loss" "0.1"; log_metric 2 "acc" "0.9"] ∧
    List.filter is_log_optimization new = [].
Proof.
  split; [reflexivity|].
  apply (multi_objective_logged service_key named_callback new_study trial_1
           ["0.1"; "0.9"] trial_0_active); [reflexivity | simpl; lia].
Defined.




(** X3 on a new study. *)
Lemma study_experiment_created_witness :
  (comet_study_experiment_key (user_attrs new_study) = None ∨
   comet_study_experiment_key (user_attrs new_study) = Some "") ∧
  let r := _init_optuna_study_experiment service_key "team" (Some "general")
             new_study fresh_process in
  calls r.2 =
    [construct APIExperiment (workspace_project "team" (Some "general")) 0;
     add_tag 0 "optuna_study";
     log_other 0 "optuna_study_name" (OStr "study");
     log_other 0 "optuna_storage" (OStr "InMemoryStorage")] ∧
  records r.2 = 1%nat ∧
  comet_study_experiment_key (user_attrs r.1.2) = Some "key0".
Proof.
  split; [by left|].
  destruct (study_experiment_created service_key "team" (Some "general")
              new_study fresh_process (or_introl eq_refl))
    as (Hcalls & Hrec & _ & Hkey & _).
  split; [exact Hcalls|]. split; [exact Hrec|]. exact Hkey.
Defined.

(** X6 for trial 1 while the experiment of trial 0 is active and open. *)
Lemma trial_experiment_created_witness :
  _trial_experiments named_callback !! number trial_1 = None ∧
  let r := _init_optuna_trial_experiment service_key named_callback new_study
             trial_1 trial_0_active in
  records r.2 = 3%nat ∧
  key_of r.2 r.1.1 = "key2" ∧
  _trial_experiments r.1.2 = <[1%Z := "key2"]> {[ 0%Z := "key1" ]}.
Proof.
  split; [reflexivity|].
  destruct (trial_experiment_created service_key named_callback new_study
              trial_1 trial_0_active eq_refl)
    as (pre & _ & _ & Hrec & Hkey & Hmap).
  split; [exact Hrec|]. split; [exact Hkey|]. exact Hmap.
Defined.

(** X7 for trial 0 in a process that has no active experiment. *)
Lemma trial_experiment_resumed_witness :
  _trial_experiments named_callback !! number trial_0 = Some "key1" ∧
  "key1" ≠ "" ∧
  let r := _init_optuna_trial_experiment service_key named_callback new_study
             trial_0 fresh_process in
  r.1.2 = named_callback ∧
  records r.2 = records fresh_process ∧
  key_of r.2 r.1.1 = "key1".
Proof.
  split; [reflexivity|]. split; [discriminate|].
  destruct (trial_experiment_resumed service_key named_callback new_study
              trial_0 "key1" fresh_process eq_refl
              ltac:(discriminate))
    as (Hself & Hrec & Hkey & _).
  split; [exact Hself|]. split; [exact Hrec|]. exact Hkey.
Defined.

Lemma trial_0_active_invariant : at_most_one_active trial_0_active.
Proof.
  intros l o Hl Ht Hopen.
  destruct l as [|[|l]]; simpl in Hl; [| |done].
  - injection Hl as <-. discriminate Ht.
  - reflexivity.
Defined.

(** X5 for trial 1 while the experiment of trial 0 is active and open. *)
Lemma callback_closes_trial_experiments_witness :
  at_most_one_active trial_0_active ∧
  let r := __call__ service_key named_callback new_study trial_1
             trial_0_active in
  at_most_one_active r.2 ∧
  r.1.2 = inr tt ∧
  ∀ l o, objects r.2 !! l = Some o → is_trial_experiment o = true →
         exp_ended o = true.
Proof.
  split; [exact trial_0_active_invariant|].
  destruct (callback_closes_trial_experiments service_key named_callback
              new_study trial_1 trial_0_active trial_0_active_invariant)
    as [Hinv Hclosed].
  split; [exact Hinv|]. split; [reflexivity|]. exact (Hclosed eq_refl).
Defined.

(** X12 with an objective function that logs as in the class docstring and
    then ends the experiment it was given. *)
Lemma callback_after_wrapper_witness :
  (∀ t w0 a, active_experiment w0 = Some a →
     active_experiment (ending_objective t w0).2 = Some a ∧
     key_of (ending_objective t w0).2 a = key_of w0 a) ∧
  let r := track_in_comet service_key constructed.1.1 new_study
             ending_objective trial_0 constructed.2 in
  ended_of r.2 1 = true ∧
  _init_optuna_trial_experiment service_key r.1.2 new_study trial_0 r.2
    = ((1%nat, r.1.2), r.2).
Proof.
  assert (Hfunc : ∀ t w0 a, active_experiment w0 = Some a →
     active_experiment (ending_objective t w0).2 = Some a ∧
     key_of (ending_objective t w0).2 a = key_of w0 a).
  { intros t w0 a Ha. split; [exact Ha|].
    exact (end_experiment_key _ a _). }
  split; [exact Hfunc|]. split; [reflexivity|].
  exact (proj1 (callback_after_wrapper service_key constructed.1.1 new_study
                  ending_objective trial_0 constructed.2 Hfunc)).
Defined.
